(** * Verification of the export logic of [src/components/ExportControls.tsx]

    The component has three export operations.  [exportToPDF] captures the
    rendered résumé as one tall raster and slices it into A4 pages;
    [exportToDOCX] maps the résumé data into a list of [docx] paragraphs;
    [exportToHTML] saves the page's head markup and the rendered résumé as
    one HTML document.

    Numbers of the pagination code are modelled as exact rationals [Q]
    (the JavaScript code computes with doubles; rounding is not modelled).
    Strings are Stdlib [string]s, i.e. sequences of 8-bit code units. *)

From Stdlib Require Import QArith Qround Qminmax Lqa ZArith Lia List String Ascii Bool.
Import ListNotations.
Open Scope Q_scope.

(* ------------------------------------------------------------------ *)
(** ** Pagination: lines 80-133 of [exportToPDF] *)

Module Pagination.

(** [const MARGIN = 30;] *)
Definition MARGIN : Q := 30.

(** [const contentWidth = pdfWidth - MARGIN * 2;] *)
Definition contentWidth (pdfWidth : Q) : Q := pdfWidth - MARGIN * 2.

(** [const pageContentHeight = pdfHeight - MARGIN * 2;] *)
Definition pageContentHeight (pdfHeight : Q) : Q := pdfHeight - MARGIN * 2.

(** [const pageContentHeightInCanvasPixels =
       (pageContentHeight * canvasWidth) / contentWidth;] *)
Definition pageContentHeightInCanvasPixels
  (pageContentHeight canvasWidth contentWidth : Q) : Q :=
  (pageContentHeight * canvasWidth) / contentWidth.

(** [const numPages = Math.ceil(canvasHeight / pageContentHeightInCanvasPixels);] *)
Definition numPages (canvasHeight pageContentPx : Q) : Z :=
  Qceiling (canvasHeight / pageContentPx).

(** One emitted slice: where it is read from the master canvas and the
    height it is drawn with on the PDF page. *)
Record Slice := mkSlice {
  sourceY : Q;
  sourceHeight : Q;
  slicePdfHeight : Q
}.

(** The body of the loop for index [i]:
    [sourceY = i * px], [sourceHeight = Math.min(px, canvasHeight - sourceY)],
    [if (sourceHeight <= 0) continue;],
    [slicePdfHeight = (sourceHeight * contentWidth) / canvasWidth]. *)
Definition slice_at (canvasWidth canvasHeight contentWidth px : Q) (i : nat)
  : option Slice :=
  let sY := inject_Z (Z.of_nat i) * px in
  let sH := Qmin px (canvasHeight - sY) in
  if Qle_bool sH 0 then None
  else Some (mkSlice sY sH ((sH * contentWidth) / canvasWidth)).

(** The indices visited by [for (let i = 0; i < numPages; i++)]. *)
Definition loop_indices (n : Z) : list nat := seq 0 (Z.to_nat n).

(** The slices drawn by the loop, in order. *)
Definition computeSlices (canvasWidth canvasHeight contentWidth px : Q)
  : list Slice :=
  flat_map (fun i => match slice_at canvasWidth canvasHeight contentWidth px i with
                     | Some s => [s] | None => [] end)
           (loop_indices (numPages canvasHeight px)).

(** What the loop does to the [jsPDF] document: [pdf.addPage()] for
    every [i > 0] (before the skip test), then [pdf.addImage] of the slice. *)
Inductive pdf_op :=
| AddPage
| AddImage (x y w h : Q).

Definition loop_body (canvasWidth canvasHeight contentWidth px : Q) (i : nat)
  : list pdf_op :=
  (if Nat.ltb 0 i then [AddPage] else []) ++
  match slice_at canvasWidth canvasHeight contentWidth px i with
  | None => []
  | Some s => [AddImage MARGIN MARGIN contentWidth (slicePdfHeight s)]
  end.

Definition pdf_ops (canvasWidth canvasHeight contentWidth px : Q) : list pdf_op :=
  flat_map (loop_body canvasWidth canvasHeight contentWidth px)
           (loop_indices (numPages canvasHeight px)).

(** Pages of the resulting document: the document starts with one page,
    [AddPage] opens a new one, [AddImage] draws on the current one.  Each
    page is represented by the number of images drawn on it. *)
Fixpoint pages_aux (ops : list pdf_op) (cur : nat) : list nat :=
  match ops with
  | [] => [cur]
  | AddPage :: rest => cur :: pages_aux rest 0
  | AddImage _ _ _ _ :: rest => pages_aux rest (S cur)
  end.

Definition pages (ops : list pdf_op) : list nat := pages_aux ops 0.

(** The geometry of [exportToPDF] for a page of [pdfWidth] x [pdfHeight]
    points (jsPDF's A4 is [595.28] x [841.89]) and a captured canvas. *)
Definition export_px (pdfWidth pdfHeight canvasWidth : Q) : Q :=
  pageContentHeightInCanvasPixels (pageContentHeight pdfHeight) canvasWidth
                                  (contentWidth pdfWidth).

Definition A4_width : Q := 59528 # 100.
Definition A4_height : Q := 84189 # 100.

(** Sum of a list of rationals. *)
Fixpoint Qsum (l : list Q) : Q :=
  match l with [] => 0 | x :: r => x + Qsum r end.

End Pagination.

(* ------------------------------------------------------------------ *)
(** ** Résumé data ([../types]) as read by [exportToDOCX] *)

Module PersonalInfo.
Record t := mk { name : string; title : string; email : string;
                 phone : string; website : string }.
End PersonalInfo.

Module Experience.
Record t := mk { title : string; company : string; startDate : string;
                 endDate : string; description : string }.
End Experience.

Module Education.
Record t := mk { degree : string; school : string; location : string;
                 graduationDate : string }.
End Education.

Module Skill.
Record t := mk { name : string }.
End Skill.

Module Project.
Record t := mk { name : string; description : string; link : string }.
End Project.

Module CustomSection.
Record t := mk { title : string; content : string }.
End CustomSection.

Module ResumeData.
Record t := mk {
  personalInfo : PersonalInfo.t;
  summary : string;
  experience : list Experience.t;
  education : list Education.t;
  skills : list Skill.t;
  projects : list Project.t;
  customSections : list CustomSection.t }.
End ResumeData.

(* ------------------------------------------------------------------ *)
(** ** JavaScript string operations used by [exportToDOCX] *)

Module JsString.
Local Open Scope string_scope.

(** [s.split('\n')]: a single-character separator; the empty string gives
    [[""]] and a trailing separator gives a trailing [""]. *)
Fixpoint split_nl (s : string) : list string :=
  match s with
  | EmptyString => [EmptyString]
  | String c rest =>
      if Ascii.eqb c "010"%char then EmptyString :: split_nl rest
      else match split_nl rest with
           | h :: t => String c h :: t
           | [] => [String c EmptyString]
           end
  end.

(** White space removed by [String.prototype.trim] among the code units
    0-255: TAB, LF, VT, FF, CR, SPACE and NO-BREAK SPACE. *)
Definition is_ws (c : ascii) : bool :=
  let n := nat_of_ascii c in
  Nat.eqb n 9 || Nat.eqb n 10 || Nat.eqb n 11 || Nat.eqb n 12 ||
  Nat.eqb n 13 || Nat.eqb n 32 || Nat.eqb n 160.

Fixpoint trim_start (s : string) : string :=
  match s with
  | EmptyString => EmptyString
  | String c rest => if is_ws c then trim_start rest else s
  end.

Fixpoint trim_end (s : string) : string :=
  match s with
  | EmptyString => EmptyString
  | String c rest =>
      match trim_end rest with
      | EmptyString => if is_ws c then EmptyString else String c EmptyString
      | r => String c r
      end
  end.

(** [s.trim()] *)
Definition trim (s : string) : string := trim_end (trim_start s).

(** [s.replace(/^- /, '')]: no [g] or [m] flag, so only a ["- "] at the
    very start of the string is removed, once. *)
Definition replace_leading_dash (s : string) : string :=
  match s with
  | String c (String c' rest) =>
      if Ascii.eqb c "-"%char && Ascii.eqb c' " "%char then rest else s
  | _ => s
  end.

(** Number of occurrences of a code unit, used to state facts on [split]. *)
Fixpoint count_char (c : ascii) (s : string) : nat :=
  match s with
  | EmptyString => 0
  | String c' rest => (if Ascii.eqb c' c then 1 else 0) + count_char c rest
  end.

(** The one-character string ["\n"]. *)
Definition newline : string := String "010"%char EmptyString.

End JsString.

(** The spec's reading of the description rule (section 4.2), written from
    its words, to be compared with [Docx.bullet_texts]: keep the lines that
    are not entirely white space, and drop the literal prefix ["- "] of a
    line when it has one. *)
Module DescriptionSpec.
Import JsString.
Local Open Scope string_scope.

Fixpoint all_ws (s : string) : bool :=
  match s with
  | EmptyString => true
  | String c rest => is_ws c && all_ws rest
  end.

Definition strip_literal_prefix (l : string) : string :=
  if String.prefix "- " l then substring 2 (String.length l - 2) l else l.

Definition spec_bullets (description : string) : list string :=
  map strip_literal_prefix (filter (fun l => negb (all_ws l)) (split_nl description)).

End DescriptionSpec.

(* ------------------------------------------------------------------ *)
(** ** [exportToDOCX]: the children of the single [docx] section *)

Module Docx.
Import JsString.
Local Open Scope string_scope.

Inductive HeadingLevel := TITLE | HEADING_1 | HEADING_2.

(** A [new Paragraph(...)]: its text and the options the code passes.
    [new Paragraph(s)] with a string argument is a plain paragraph of [s]. *)
Record Paragraph := mkParagraph {
  text : string;
  heading : option HeadingLevel;
  style : option string;
  bullet : bool }.

Definition plain (s : string) : Paragraph := mkParagraph s None None false.
Definition headed (s : string) (h : HeadingLevel) : Paragraph :=
  mkParagraph s (Some h) None false.
Definition strong (s : string) : Paragraph := mkParagraph s None (Some "strong") false.
(** [new Paragraph({ text: "" })] *)
Definition spacer : Paragraph := plain "".

(** [exp.description.split('\n').filter(l => l.trim() !== '')
       .map(d => d.replace(/^- /, ''))] *)
Definition bullet_texts (description : string) : list string :=
  map replace_leading_dash
      (filter (fun l => negb (String.eqb (trim l) "")) (split_nl description)).

Definition experience_blocks (exp : Experience.t) : list Paragraph :=
  [strong (Experience.title exp ++ " - " ++ Experience.company exp);
   plain (Experience.startDate exp ++ " - " ++ Experience.endDate exp)] ++
  map (fun d => mkParagraph d None None true) (bullet_texts (Experience.description exp)) ++
  [spacer].

Definition education_blocks (edu : Education.t) : list Paragraph :=
  [strong (Education.degree edu ++ ", " ++ Education.school edu);
   plain (Education.location edu ++ " | " ++ Education.graduationDate edu);
   spacer].

(** [skills.map(skill => skill.name).join(', ')] *)
Fixpoint join (sep : string) (l : list string) : string :=
  match l with
  | [] => ""
  | [x] => x
  | x :: rest => x ++ sep ++ join sep rest
  end.

Definition project_blocks (proj : Project.t) : list Paragraph :=
  [strong (Project.name proj); plain (Project.description proj);
   plain (Project.link proj); spacer].

Definition custom_blocks (section : CustomSection.t) : list Paragraph :=
  [headed (CustomSection.title section) HEADING_1;
   plain (CustomSection.content section); spacer].

Definition identity_blocks (pi : PersonalInfo.t) : list Paragraph :=
  [headed (PersonalInfo.name pi) TITLE;
   headed (PersonalInfo.title pi) HEADING_2;
   plain ("Email: " ++ PersonalInfo.email pi ++ " | Phone: " ++ PersonalInfo.phone pi
          ++ " | Website: " ++ PersonalInfo.website pi)].

Definition summary_blocks (summary : string) : list Paragraph :=
  [headed "Summary" HEADING_1; plain summary].

(** The [children] array of the document, lines 159-208. *)
Definition exportToDOCX_children (r : ResumeData.t) : list Paragraph :=
  identity_blocks (ResumeData.personalInfo r) ++ [spacer] ++
  summary_blocks (ResumeData.summary r) ++ [spacer] ++
  [headed "Experience" HEADING_1] ++
  flat_map experience_blocks (ResumeData.experience r) ++
  [headed "Education" HEADING_1] ++
  flat_map education_blocks (ResumeData.education r) ++
  [headed "Skills" HEADING_1;
   plain (join ", " (map Skill.name (ResumeData.skills r)));
   spacer] ++
  [headed "Projects" HEADING_1] ++
  flat_map project_blocks (ResumeData.projects r) ++
  flat_map custom_blocks (ResumeData.customSections r).

(** Observations on a block list, used to state the order of the entries. *)
Definition is_bullet (p : Paragraph) : bool := bullet p.
Definition is_strong (p : Paragraph) : bool :=
  match style p with Some _ => true | None => false end.
Definition is_heading1 (p : Paragraph) : bool :=
  match heading p with Some HEADING_1 => true | _ => false end.

End Docx.

(* ------------------------------------------------------------------ *)
(** ** The DOCX contract, in the words of the specification *)

Module AssemblySpec.
Import JsString DescriptionSpec Docx.
Local Open Scope string_scope.

(** A section: its heading followed by the blocks of its entries, one group
    per entry, in the order of the entries. *)
Definition section (title : string) (entries : list (list Paragraph)) : list Paragraph :=
  headed title HEADING_1 :: List.concat entries.

(** The fixed order of the contract: identity block, spacer, Summary,
    spacer, the Experience entries, the Education entries, the Skills line,
    the Projects entries, then the custom sections. *)
Definition assemble_order (identity summary : list Paragraph)
    (experience education : list (list Paragraph)) (skills : list Paragraph)
    (projects customs : list (list Paragraph)) : list Paragraph :=
  identity ++ [spacer] ++ summary ++ [spacer] ++
  section "Experience" experience ++ section "Education" education ++
  section "Skills" [skills] ++ section "Projects" projects ++ List.concat customs.

(** The number of non-blank lines of a description. *)
Definition nonblank_lines (description : string) : nat :=
  List.length (filter (fun l => negb (all_ws l)) (split_nl description)).

End AssemblySpec.

(* ------------------------------------------------------------------ *)
(** ** [exportToPDF] as a whole: DOM state and observable effects *)

Module ExportPDF.
Import Pagination.

(** An element's inline style, as the declarations it holds, in order:
    those of its [style] attribute, then those assigned since through
    [el.style.<prop> = v].  The browser's expansion of shorthands and its
    serialization of values are not modelled, and nothing in this
    development reads a property back: [style.cssText = s], with [s] read
    earlier from the same element, gives the element that style again. *)
Definition css := list (string * string).

(** [el.style.<prop> = v]: one more declaration assigned to the element. *)
Definition set_prop (prop v : string) (c : css) : css := c ++ [(prop, v)].

(** What the export reads and writes of the page: the [dark] class of
    [document.documentElement] and the inline styles of [#resume-preview],
    of the parent of [#resume-content] and of [#resume-content]. *)
Record Dom := mkDom {
  dark : bool;
  previewCss : css;
  wrapperCss : css;
  contentCss : css }.

Definition set_dark (b : bool) (d : Dom) : Dom :=
  mkDom b (previewCss d) (wrapperCss d) (contentCss d).

(** Lines 52-58. *)
Definition apply_export_styles (d : Dom) : Dom :=
  mkDom (dark d)
    (set_prop "height" "auto" (set_prop "overflow" "visible" (previewCss d)))
    (set_prop "aspect-ratio" "auto" (set_prop "padding-top" "0"
       (set_prop "height" "auto" (wrapperCss d))))
    (set_prop "height" "auto" (set_prop "position" "static" (contentCss d))).

(** How the [setTimeout] callback of lines 61-72 goes on. *)
Inductive capture_result :=
| GlobalsMissing              (* [window.jspdf] or [html2canvas] is undefined:
                                 line 63 or 65 throws, before any promise exists *)
| Rejected                    (* html2canvas's promise rejects *)
| Resolved (canvasWidth canvasHeight : Q).  (* it resolves with a canvas of that size *)

(** What the browser and the libraries answer during one export. *)
Record Env := mkEnv {
  hasContent : bool;            (* getElementById('resume-content') is non-null *)
  hasPreview : bool;            (* getElementById('resume-preview') is non-null *)
  hasParent : bool;             (* resumeContentElement.parentElement is non-null *)
  capture : capture_result;     (* the callback throws, or html2canvas rejects or resolves *)
  pdfWidth : Q;                 (* pdf.internal.pageSize.getWidth() *)
  pdfHeight : Q;                (* pdf.internal.pageSize.getHeight() *)
  has2d : bool;                 (* pageCanvas.getContext('2d') is non-null *)
  encodeOk : nat -> bool;       (* drawing and encoding slice i does not throw *)
  userName : string }.          (* resumeData.personalInfo.name *)

Inductive event :=
| ConsoleError (msg : string)
| Alert (msg : string)
| Capture (rendered : Dom)      (* html2canvas is called on the page as it is then *)
| PdfOp (op : pdf_op)
| Save (filename : string)
| UncaughtError.                (* an exception leaves the timer callback *)

Definition is_alert (e : event) : bool :=
  match e with Alert _ => true | _ => false end.
Definition is_console_error (e : event) : bool :=
  match e with ConsoleError _ => true | _ => false end.
Definition is_capture (e : event) : bool :=
  match e with Capture _ => true | _ => false end.
Definition is_save (e : event) : bool :=
  match e with Save _ => true | _ => false end.

(** The [for] loop of the [.then] callback; the boolean tells whether it
    threw, which skips the rest of the callback. *)
Fixpoint run_loop (env : Env) (canvasWidth canvasHeight cw px : Q) (idxs : list nat)
  : list event * bool :=
  match idxs with
  | [] => ([], false)
  | i :: rest =>
      let pre := if Nat.ltb 0 i then [PdfOp AddPage] else [] in
      match slice_at canvasWidth canvasHeight cw px i with
      | None =>
          let (evs, threw) := run_loop env canvasWidth canvasHeight cw px rest in
          (pre ++ evs, threw)
      | Some s =>
          if encodeOk env i then
            let (evs, threw) := run_loop env canvasWidth canvasHeight cw px rest in
            (pre ++ [PdfOp (AddImage MARGIN MARGIN cw (slicePdfHeight s))] ++ evs, threw)
          else (pre, true)
      end
  end.

(** The [.then(canvas => ...)] callback, lines 73-136. *)
Definition on_canvas (env : Env) (canvasWidth canvasHeight : Q) : list event * bool :=
  let cw := contentWidth (pdfWidth env) in
  let px := pageContentHeightInCanvasPixels (pageContentHeight (pdfHeight env))
                                            canvasWidth cw in
  if negb (has2d env) then
    ([ConsoleError "Could not get 2d context from canvas"%string], false)
  else
    let (evs, threw) := run_loop env canvasWidth canvasHeight cw px
                          (loop_indices (numPages canvasHeight px)) in
    if threw then (evs, true)
    else (evs ++ [Save (String.append (userName env) "_Resume.pdf")], false).

(** [exportToPDF], with the [setTimeout] callback and the promise chain
    [html2canvas(...).then(...).catch(...).finally(...)] run to the end. *)
Definition exportToPDF (env : Env) (dom : Dom) : Dom * list event :=
  if negb (hasContent env) then
    (dom, [ConsoleError "Resume content element not found for PDF export."%string;
           Alert "An error occurred while exporting to PDF."%string])
  else
    let isDarkMode := dark dom in
    let d1 := if isDarkMode then set_dark false dom else dom in
    if negb (hasPreview env && hasParent env) then
      ((if isDarkMode then set_dark true d1 else d1), [])
    else
      let originalPreviewStyle := previewCss d1 in
      let originalWrapperStyle := wrapperCss d1 in
      let originalContentStyle := contentCss d1 in
      let d2 := apply_export_styles d1 in
      match capture env with
      | GlobalsMissing =>
          (* the callback throws before the promise chain, and with it
             [.finally], is built *)
          (d2, [UncaughtError])
      | outcome =>
      let (evs, rejected) :=
        match outcome with
        | Resolved canvasWidth canvasHeight => on_canvas env canvasWidth canvasHeight
        | _ => ([], true)
        end in
      let evs_caught :=
        if rejected then
          evs ++ [ConsoleError "Failed to export to PDF:"%string;
                  Alert "An error occurred while exporting to PDF. Please try again."%string]
        else evs in
      (* .finally *)
      let d3 := mkDom (dark d2) originalPreviewStyle originalWrapperStyle
                      originalContentStyle in
      let d4 := if isDarkMode then set_dark true d3 else d3 in
      (d4, Capture d2 :: evs_caught)
      end.

(** A sample page state and environment for the witnesses. *)
Definition sample_dom : Dom :=
  mkDom true [("height"%string, "640px"%string)] [("padding-top"%string, "141%"%string)]
        [("position"%string, "absolute"%string)].

Definition sample_env (cap : capture_result) (ctx : bool) (enc : nat -> bool) : Env :=
  mkEnv true true true cap A4_width A4_height ctx enc "Ada".

End ExportPDF.

(* ------------------------------------------------------------------ *)
(** ** [exportToHTML] and [saveBlob] *)

Module ExportHTML.
Import JsString.
Local Open Scope string_scope.

(** An entry of [FONTS] (imported from [../constants]): only [key] and
    [className] are read. *)
Record Font := mkFont { key : string; className : string }.

(** [FONTS.find(f => f.key === customization.font)?.className || 'font-inter']:
    a missing entry and an empty [className] both give ['font-inter']. *)
Definition fontClass (FONTS : list Font) (font : string) : string :=
  match find (fun f => String.eqb (key f) font) FONTS with
  | Some f => if String.eqb (className f) "" then "font-inter" else className f
  | None => "font-inter"
  end.

Definition dq : string := String "034"%char EmptyString.

(** The template literal of lines 229-262 is
    ["\n" ++ html_document ... ++ "\n        "]; [html_document] runs from
    [<!DOCTYPE html>] to [</html>]. *)
Definition html_document (name headContent fontClass resumeHTML : string) : string :=
  String.append (String.concat "" [
    "<!DOCTYPE html>
<html lang=";
    dq;
    "en";
    dq;
    ">
    <head>
        <meta charset=";
    dq;
    "UTF-8";
    dq;
    " />
        <meta name=";
    dq;
    "viewport";
    dq;
    " content=";
    dq;
    "width=device-width, initial-scale=1.0";
    dq;
    " />
        <title>";
    name;
    " Resume</title>
        ";
    headContent;
    "
        <style>
            body {
                background-color: #f1f5f9; /* slate-100 */
                padding: 1rem;
                display: flex;
                justify-content: center;
                align-items: flex-start;
                min-height: 100vh;
            }
            .dark body {
                background-color: #020617; /* slate-950 */
            }
            #resume-wrapper {
                max-width: 8.5in;
                width: 100%;
                box-shadow: 0 10px 15px -3px rgb(0 0 0 / 0.1), 0 4px 6px -4px rgb(0 0 0 / 0.1);
            }
        </style>
    </head>
    <body class=";
    dq;
    fontClass;
    dq;
    ">
        <div id=";
    dq;
    "resume-wrapper";
    dq;
    ">
            ";
    resumeHTML;
    "
        </div>
    </body>
"
  ]) "</html>".

Definition fullHTML (name headContent fontClass resumeHTML : string) : string :=
  String.append newline
    (String.append (html_document name headContent fontClass resumeHTML)
                   (String.append newline "        ")).

(** What [exportToHTML] reads. *)
Record HtmlEnv := mkHtmlEnv {
  hasContent : bool;         (* getElementById('resume-content') is non-null *)
  headContent : string;      (* document.head.innerHTML *)
  resumeHTML : string;       (* resumeContentElement.innerHTML *)
  FONTS : list Font;
  font : string;             (* customization.font *)
  userName : string }.       (* resumeData.personalInfo.name *)

(** Observable effects; [saveBlob] (lines 7-13) creates an object URL for
    the blob, clicks a link downloading it under [filename], and revokes
    the URL: one download. *)
Inductive event :=
| ConsoleError (msg : string)
| Alert (msg : string)
| SaveBlob (filename : string) (content : string).

Definition saveBlob (content filename : string) : list event :=
  [SaveBlob filename content].

(** [exportToHTML], lines 217-266. *)
Definition exportToHTML (env : HtmlEnv) : list event :=
  if negb (hasContent env) then
    [ConsoleError "Resume content element not found for HTML export.";
     Alert "Could not find resume content to export."]
  else
    let fc := fontClass (FONTS env) (font env) in
    let full := fullHTML (userName env) (headContent env) fc (resumeHTML env) in
    saveBlob (trim full) (String.append (userName env) "_Resume.html").

End ExportHTML.

(* ------------------------------------------------------------------ *)
(** ** Pagination lemmas *)

Module PaginationFacts.
Import Pagination.

Lemma inject_Z_minus (x y : Z) : inject_Z (x - y) == inject_Z x - inject_Z y.
Proof. unfold Z.sub. rewrite inject_Z_plus, inject_Z_opp. reflexivity. Qed.

Lemma inject_nat_nonneg (k : nat) : 0 <= inject_Z (Z.of_nat k).
Proof. change 0 with (inject_Z 0). rewrite <- Zle_Qle. lia. Qed.

Section Geometry.
Variables canvasWidth canvasHeight contentWidth px : Q.
Hypothesis Hpx : 0 < px.
Hypothesis Hh : 0 < canvasHeight.

Let n := numPages canvasHeight px.

Lemma div_mul_cancel : canvasHeight / px * px == canvasHeight.
Proof.
  unfold Qdiv. rewrite <- Qmult_assoc, (Qmult_comm (/ px)), Qmult_inv_r.
  - apply Qmult_1_r.
  - intro E. rewrite E in Hpx. discriminate.
Qed.

(** [(n - 1) * px < canvasHeight <= n * px]. *)
Lemma numPages_bounds :
  (inject_Z n - 1) * px < canvasHeight /\ canvasHeight <= inject_Z n * px.
Proof.
  pose proof (Qceiling_lt (canvasHeight / px)) as Hlt.
  pose proof (Qle_ceiling (canvasHeight / px)) as Hle.
  fold (numPages canvasHeight px) in Hlt, Hle. fold n in Hlt, Hle.
  rewrite inject_Z_minus in Hlt. simpl (inject_Z 1) in Hlt.
  pose proof div_mul_cancel as Hc.
  split.
  - rewrite <- Hc. apply Qmult_lt_r; assumption.
  - rewrite <- Hc. apply Qmult_le_r; assumption.
Qed.

Lemma numPages_pos : (1 <= n)%Z.
Proof.
  destruct numPages_bounds as [_ H2].
  destruct (Z_lt_le_dec n 1) as [Hn|Hn]; [|exact Hn].
  exfalso. assert (inject_Z n <= 0) as Hz.
  { change 0 with (inject_Z 0). rewrite <- Zle_Qle. lia. }
  nra.
Qed.

Lemma index_in_range (i : nat) :
  (i < Z.to_nat n)%nat -> inject_Z (Z.of_nat i) * px < canvasHeight.
Proof.
  intro Hi. destruct numPages_bounds as [H1 _].
  assert (inject_Z (Z.of_nat i) <= inject_Z n - 1) as Hz.
  { setoid_replace (inject_Z n - 1) with (inject_Z (n - 1))
      by (rewrite inject_Z_minus; reflexivity).
    rewrite <- Zle_Qle.
    pose proof numPages_pos. lia. }
  nra.
Qed.

Lemma sourceHeight_pos (i : nat) :
  (i < Z.to_nat n)%nat ->
  0 < Qmin px (canvasHeight - inject_Z (Z.of_nat i) * px).
Proof.
  intro Hi. pose proof (index_in_range i Hi).
  apply Q.min_glb_lt; lra.
Qed.

Lemma slice_at_some (i : nat) :
  (i < Z.to_nat n)%nat ->
  slice_at canvasWidth canvasHeight contentWidth px i =
  Some (let sY := inject_Z (Z.of_nat i) * px in
        let sH := Qmin px (canvasHeight - sY) in
        mkSlice sY sH ((sH * contentWidth) / canvasWidth)).
Proof.
  intro Hi. pose proof (sourceHeight_pos i Hi) as Hp.
  unfold slice_at. cbv zeta.
  destruct (Qle_bool _ 0) eqn:E; [|reflexivity].
  apply Qle_bool_iff in E. lra.
Qed.

Let N := Z.to_nat n.
Let sh (i : nat) := Qmin px (canvasHeight - inject_Z (Z.of_nat i) * px).
Let full_slice (i : nat) :=
  let sY := inject_Z (Z.of_nat i) * px in
  let sH := Qmin px (canvasHeight - sY) in
  mkSlice sY sH ((sH * contentWidth) / canvasWidth).

Lemma computeSlices_explicit :
  computeSlices canvasWidth canvasHeight contentWidth px = map full_slice (seq 0 N).
Proof.
  unfold computeSlices, loop_indices. fold n. fold N.
  assert (forall l, (forall i, In i l -> (i < N)%nat) ->
     flat_map (fun i => match slice_at canvasWidth canvasHeight contentWidth px i with
                        | Some s => [s] | None => [] end) l = map full_slice l) as Hgen.
  { induction l as [|i l IH]; intros Hin; [reflexivity|].
    simpl. rewrite (slice_at_some i (Hin i (or_introl eq_refl))).
    simpl. f_equal. apply IH. intros j Hj. apply Hin. right. exact Hj. }
  apply Hgen. intros i Hi. apply in_seq in Hi. lia.
Qed.

Lemma Qsum_app (l1 l2 : list Q) : Qsum (l1 ++ l2) == Qsum l1 + Qsum l2.
Proof.
  induction l1 as [|x l1 IH]; simpl.
  - ring.
  - rewrite IH. ring.
Qed.

Lemma inject_nat_S (k : nat) :
  inject_Z (Z.of_nat (S k)) == inject_Z (Z.of_nat k) + 1.
Proof. rewrite Nat2Z.inj_succ, <- Z.add_1_r, inject_Z_plus. reflexivity. Qed.

(** While a whole page still fits, every slice is a full page. *)
Lemma prefix_sum (k : nat) :
  inject_Z (Z.of_nat k) * px <= canvasHeight ->
  Qsum (map sh (seq 0 k)) == inject_Z (Z.of_nat k) * px.
Proof.
  induction k as [|k IH]; intros Hk.
  - reflexivity.
  - rewrite seq_S, map_app, Qsum_app. simpl plus.
    rewrite inject_nat_S in Hk |- *.
    pose proof (inject_nat_nonneg k).
    rewrite IH by nra.
    simpl. unfold sh. rewrite Q.min_l by nra. ring.
Qed.

Lemma slices_sum :
  Qsum (map sourceHeight (computeSlices canvasWidth canvasHeight contentWidth px))
  == canvasHeight.
Proof.
  rewrite computeSlices_explicit, map_map.
  change (map (fun x => sourceHeight (full_slice x)) (seq 0 N)) with (map sh (seq 0 N)).
  pose proof numPages_pos as Hpos. destruct numPages_bounds as [H1 H2].
  assert (Z.of_nat N = n) as HN by (unfold N; lia).
  destruct N as [|M] eqn:EN; [simpl in HN; lia|].
  assert (inject_Z (Z.of_nat M) == inject_Z n - 1) as HM.
  { rewrite <- HN, inject_nat_S. ring. }
  rewrite seq_S, map_app, Qsum_app, prefix_sum by (rewrite HM; lra).
  simpl. unfold sh. rewrite Q.min_r by (rewrite HM; nra).
  ring.
Qed.

Lemma slices_length :
  List.length (computeSlices canvasWidth canvasHeight contentWidth px) = Z.to_nat n.
Proof. rewrite computeSlices_explicit, length_map, length_seq. reflexivity. Qed.

Lemma slices_nth (i : nat) :
  (i < Z.to_nat n)%nat ->
  nth_error (computeSlices canvasWidth canvasHeight contentWidth px) i =
  Some (full_slice i).
Proof.
  intros Hi. rewrite computeSlices_explicit, nth_error_map, nth_error_seq.
  fold N. destruct (Nat.ltb_spec i N); [reflexivity | unfold N in *; lia].
Qed.

Lemma pages_aux_tail (l : list nat) (c : nat) :
  (forall i, In i l -> 0 < i /\ i < N)%nat ->
  pages_aux (flat_map (loop_body canvasWidth canvasHeight contentWidth px) l) c
  = c :: repeat 1%nat (List.length l).
Proof.
  revert c. induction l as [|i l IH]; intros c Hin; [reflexivity|].
  destruct (Hin i (or_introl eq_refl)) as [Hi0 HiN].
  simpl. unfold loop_body at 1.
  rewrite (slice_at_some i HiN).
  destruct i as [|i']; [lia|]. simpl.
  rewrite IH; [reflexivity|]. intros j Hj. apply Hin. right. exact Hj.
Qed.

(** Every page of the document carries exactly one image. *)
Lemma pages_all_one :
  pages (pdf_ops canvasWidth canvasHeight contentWidth px) = repeat 1%nat N.
Proof.
  unfold pages, pdf_ops, loop_indices. fold n. fold N.
  pose proof numPages_pos as Hpos.
  assert (Z.of_nat N = n) as HN by (unfold N; lia).
  assert (0 < N)%nat as HN0 by lia.
  destruct N as [|M] eqn:EN; [lia|].
  change (seq 0 (S M)) with (0%nat :: seq 1 M).
  simpl flat_map. unfold loop_body at 1. simpl (Nat.ltb 0 0).
  rewrite (slice_at_some 0 ltac:(unfold N in EN; lia)). simpl.
  rewrite pages_aux_tail, length_seq; [reflexivity|].
  intros j Hj. apply in_seq in Hj. lia.
Qed.

End Geometry.
End PaginationFacts.

(* ------------------------------------------------------------------ *)
(** ** Pagination claims *)

Module PaginationClaims.
Import Pagination PaginationFacts.

(** C1: for [canvasHeight > 0] and [pageContentPx > 0], the source heights
    of all slices drawn by the loop add up to exactly [canvasHeight]. *)
Theorem slices_cover_canvas (canvasWidth canvasHeight contentWidth px : Q)
  (Hh : 0 < canvasHeight) (Hpx : 0 < px) :
  Qsum (map sourceHeight (computeSlices canvasWidth canvasHeight contentWidth px))
  == canvasHeight.
Proof. apply slices_sum; assumption. Qed.

Lemma slices_cover_canvas_witness :
  0 < 250 /\ 0 < 100 /\
  Qsum (map sourceHeight (computeSlices 50 250 25 100)) == 250.
Proof.
  split; [reflexivity|]. split; [reflexivity|].
  apply (slices_cover_canvas 50 250 25 100); reflexivity.
Defined.

(** C2: the loop draws exactly [ceil(canvasHeight / pageContentPx)] slices
    (none is skipped); when [canvasHeight = pageContentPx * k] it draws [k]
    slices and the document has [k] pages, each carrying one image. *)
Theorem slice_count (canvasWidth canvasHeight contentWidth px : Q)
  (Hh : 0 < canvasHeight) (Hpx : 0 < px) :
  List.length (computeSlices canvasWidth canvasHeight contentWidth px)
    = Z.to_nat (numPages canvasHeight px) /\
  (forall k : nat, canvasHeight == px * inject_Z (Z.of_nat k) ->
     List.length (computeSlices canvasWidth canvasHeight contentWidth px) = k /\
     pages (pdf_ops canvasWidth canvasHeight contentWidth px) = repeat 1%nat k).
Proof.
  assert (Z.to_nat (numPages canvasHeight px) = List.length (computeSlices canvasWidth canvasHeight contentWidth px)) as HL
    by (symmetry; apply slices_length; assumption).
  split; [symmetry; exact HL|].
  intros k Hk.
  assert (numPages canvasHeight px = Z.of_nat k) as Hn.
  { unfold numPages. rewrite Hk.
    setoid_replace (px * inject_Z (Z.of_nat k) / px) with (inject_Z (Z.of_nat k))
      by (field; intro E; rewrite E in Hpx; discriminate).
    apply Qceiling_Z. }
  rewrite <- HL, Hn, Nat2Z.id. split; [reflexivity|].
  rewrite pages_all_one by assumption. rewrite Hn, Nat2Z.id. reflexivity.
Qed.

Lemma slice_count_witness :
  0 < 300 /\ 0 < 100 /\
  List.length (computeSlices 50 300 25 100) = Z.to_nat (numPages 300 100) /\
  (forall k : nat, 300 == 100 * inject_Z (Z.of_nat k) ->
     List.length (computeSlices 50 300 25 100) = k /\
     pages (pdf_ops 50 300 25 100) = repeat 1%nat k).
Proof.
  split; [reflexivity|]. split; [reflexivity|].
  apply (slice_count 50 300 25 100); reflexivity.
Defined.

(** C3: the geometry is the one of the spec: [pageContentPx =
    contentHeightPt * canvasWidth / contentWidthPt], at least one page for a
    non-empty canvas, and the [i]-th slice has [sourceY = i * pageContentPx],
    [sourceHeight = min(pageContentPx, canvasHeight - sourceY)] and is drawn
    [sourceHeight * contentWidth / canvasWidth] points high. *)
Theorem pagination_geometry (pdfWidth pdfHeight canvasWidth canvasHeight : Q)
  (Hw : 0 < canvasWidth) (Hh : 0 < canvasHeight)
  (Hpw : 2 * MARGIN < pdfWidth) (Hph : 2 * MARGIN < pdfHeight) :
  let cw := contentWidth pdfWidth in
  let ch := pageContentHeight pdfHeight in
  let px := export_px pdfWidth pdfHeight canvasWidth in
  px == ch * canvasWidth / cw /\
  numPages canvasHeight px = Qceiling (canvasHeight / px) /\
  (1 <= numPages canvasHeight px)%Z /\
  (forall i : nat, (i < Z.to_nat (numPages canvasHeight px))%nat ->
     exists s, nth_error (computeSlices canvasWidth canvasHeight cw px) i = Some s /\
       sourceY s == inject_Z (Z.of_nat i) * px /\
       sourceHeight s == Qmin px (canvasHeight - sourceY s) /\
       slicePdfHeight s == sourceHeight s * cw / canvasWidth).
Proof.
  intros cw ch px.
  assert (0 < px) as Hpx.
  { unfold px, export_px, pageContentHeightInCanvasPixels, pageContentHeight, contentWidth in *.
    unfold MARGIN in *.
    apply Qlt_shift_div_l; [lra|]. setoid_replace (0 * (pdfWidth - 30 * 2)) with 0 by ring.
    nra. }
  split; [reflexivity|]. split; [reflexivity|].
  split; [apply numPages_pos; assumption|].
  intros i Hi. eexists. split; [apply slices_nth; assumption|].
  simpl. split; [reflexivity|]. split; reflexivity.
Qed.

Lemma pagination_geometry_witness :
  0 < 1200 /\ 0 < 4000 /\ 2 * MARGIN < A4_width /\ 2 * MARGIN < A4_height /\
  let cw := contentWidth A4_width in
  let ch := pageContentHeight A4_height in
  let px := export_px A4_width A4_height 1200 in
  px == ch * 1200 / cw /\
  numPages 4000 px = Qceiling (4000 / px) /\
  (1 <= numPages 4000 px)%Z /\
  (forall i : nat, (i < Z.to_nat (numPages 4000 px))%nat ->
     exists s, nth_error (computeSlices 1200 4000 cw px) i = Some s /\
       sourceY s == inject_Z (Z.of_nat i) * px /\
       sourceHeight s == Qmin px (4000 - sourceY s) /\
       slicePdfHeight s == sourceHeight s * cw / 1200).
Proof.
  split; [reflexivity|]. split; [reflexivity|].
  split; [reflexivity|]. split; [reflexivity|].
  apply (pagination_geometry A4_width A4_height 1200 4000); reflexivity.
Defined.

(** C10: with exact arithmetic, every visited index [i] has
    [sourceY < canvasHeight], so [sourceHeight > 0] and the skip branch is
    never taken; every page opened by [pdf.addPage()] gets its image. *)
Theorem skip_unreachable (canvasWidth canvasHeight contentWidth px : Q)
  (Hh : 0 < canvasHeight) (Hpx : 0 < px) :
  (forall i : nat, (i < Z.to_nat (numPages canvasHeight px))%nat ->
     inject_Z (Z.of_nat i) * px < canvasHeight /\
     0 < Qmin px (canvasHeight - inject_Z (Z.of_nat i) * px) /\
     slice_at canvasWidth canvasHeight contentWidth px i <> None) /\
  pages (pdf_ops canvasWidth canvasHeight contentWidth px)
    = repeat 1%nat (Z.to_nat (numPages canvasHeight px)).
Proof.
  split.
  - intros i Hi. split; [apply index_in_range; assumption|].
    split; [apply sourceHeight_pos; assumption|].
    rewrite slice_at_some by assumption. discriminate.
  - apply pages_all_one; assumption.
Qed.

Lemma skip_unreachable_witness :
  0 < 250 /\ 0 < 100 /\
  (forall i : nat, (i < Z.to_nat (numPages 250 100))%nat ->
     inject_Z (Z.of_nat i) * 100 < 250 /\
     0 < Qmin 100 (250 - inject_Z (Z.of_nat i) * 100) /\
     slice_at 50 250 25 100 i <> None) /\
  pages (pdf_ops 50 250 25 100) = repeat 1%nat (Z.to_nat (numPages 250 100)).
Proof.
  split; [reflexivity|]. split; [reflexivity|].
  apply (skip_unreachable 50 250 25 100); reflexivity.
Defined.

End PaginationClaims.

(* ------------------------------------------------------------------ *)
(** ** Facts on the description rule *)

Module DescriptionFacts.
Import JsString DescriptionSpec Docx.
Local Open Scope string_scope.

Lemma trim_start_all_ws (s : string) :
  all_ws s = true -> trim_start s = EmptyString.
Proof.
  induction s as [|c rest IH]; simpl; [reflexivity|].
  intros H. apply andb_true_iff in H as [Hc Hr]. rewrite Hc. apply IH, Hr.
Qed.

Lemma trim_start_not_all_ws (s : string) :
  all_ws s = false ->
  exists c rest, trim_start s = String c rest /\ is_ws c = false.
Proof.
  induction s as [|c rest IH]; simpl; [discriminate|].
  intros H. destruct (is_ws c) eqn:Ec.
  - apply IH. exact H.
  - exists c, rest. split; [reflexivity | exact Ec].
Qed.

Lemma trim_end_nonempty (c : ascii) (rest : string) :
  is_ws c = false -> trim_end (String c rest) <> EmptyString.
Proof.
  intros Hc. simpl. destruct (trim_end rest); [rewrite Hc|]; discriminate.
Qed.

(** [l.trim() !== ''] holds exactly for the lines that are not all white space. *)
Lemma trim_nonempty_iff (l : string) :
  String.eqb (trim l) "" = all_ws l.
Proof.
  unfold trim. destruct (all_ws l) eqn:E.
  - rewrite trim_start_all_ws by exact E. reflexivity.
  - destruct (trim_start_not_all_ws l E) as (c & rest & -> & Hc).
    apply String.eqb_neq, trim_end_nonempty, Hc.
Qed.

Lemma substring_0_length (s : string) : substring 0 (String.length s) s = s.
Proof. induction s as [|c rest IH]; simpl; [reflexivity|]. rewrite IH. reflexivity. Qed.

Lemma replace_leading_dash_spec (l : string) :
  replace_leading_dash l = strip_literal_prefix l.
Proof.
  unfold replace_leading_dash, strip_literal_prefix.
  destruct l as [|c [|c' rest]]; [reflexivity| |].
  - cbn [String.prefix]. destruct (ascii_dec "-" c); reflexivity.
  - cbn [String.prefix].
    destruct (Ascii.eqb_spec c "-") as [->|Hc].
    + destruct (ascii_dec "-" "-") as [_|]; [|congruence].
      destruct (Ascii.eqb_spec c' " ") as [->|Hc'].
      * destruct (ascii_dec " " " ") as [_|]; [|congruence].
        cbn. rewrite Nat.sub_0_r, substring_0_length. destruct rest; reflexivity.
      * destruct (ascii_dec " " c'); [congruence|reflexivity].
    + destruct (ascii_dec "-" c); [congruence|reflexivity].
Qed.

Lemma replace_leading_dash_shape (l : string) :
  replace_leading_dash l = l \/ l = "- " ++ replace_leading_dash l.
Proof.
  unfold replace_leading_dash.
  destruct l as [|c [|c' rest]]; [left; reflexivity | left; reflexivity |].
  destruct (Ascii.eqb_spec c "-") as [->|_]; [|left; reflexivity].
  destruct (Ascii.eqb_spec c' " ") as [->|_]; [right; reflexivity | left; reflexivity].
Qed.

End DescriptionFacts.

(* ------------------------------------------------------------------ *)
(** ** DOCX claims *)

Module DocxClaims.
Import JsString DescriptionSpec Docx DescriptionFacts.
Local Open Scope string_scope.

(** C4: the bullets of an experience description are its lines (split on
    newline) that are not blank after trimming, each with one literal
    leading ["- "] removed; ["- Led a team"] gives ["Led a team"], ["-- note"]
    is kept as it is, and nothing but a leading ["- "] is ever removed. *)
Theorem description_bullets (description : string) :
  bullet_texts description = spec_bullets description /\
  (forall l, replace_leading_dash l = l \/ l = "- " ++ replace_leading_dash l) /\
  bullet_texts "- Led a team" = ["Led a team"] /\
  bullet_texts "-- note" = ["-- note"].
Proof.
  split; [|split; [exact replace_leading_dash_shape | split; reflexivity]].
  unfold bullet_texts, spec_bullets.
  rewrite (filter_ext _ (fun l => negb (all_ws l))
             (fun l => f_equal negb (trim_nonempty_iff l))).
  apply map_ext, replace_leading_dash_spec.
Qed.

End DocxClaims.

(* ------------------------------------------------------------------ *)
(** ** Facts on the DOCX block list *)

Module DocxFacts.
Import JsString Docx.
Local Open Scope nat_scope.
Local Open Scope string_scope.

Lemma length_flat_map_const {A B} (f : A -> list B) (k : nat) (l : list A) :
  (forall x, List.length (f x) = k) -> List.length (flat_map f l) = k * List.length l.
Proof.
  intros Hk. induction l as [|x l IH]; simpl; [lia|].
  rewrite length_app, Hk, IH. lia.
Qed.

Lemma length_flat_map_experience (l : list Experience.t) :
  List.length (flat_map experience_blocks l) =
  list_sum (map (fun e => 3 + List.length (bullet_texts (Experience.description e)))%nat l).
Proof.
  induction l as [|e l IH]; simpl; [reflexivity|].
  rewrite length_app, IH. unfold experience_blocks.
  rewrite !length_app, length_map. simpl. lia.
Qed.

Lemma filter_flat_map {A B} (p : B -> bool) (f : A -> list B) (l : list A) :
  filter p (flat_map f l) = flat_map (fun x => filter p (f x)) l.
Proof.
  induction l as [|x l IH]; simpl; [reflexivity|].
  rewrite filter_app, IH. reflexivity.
Qed.

Lemma filter_bullet_map (l : list string) :
  filter is_bullet (map (fun d => mkParagraph d None None true) l) =
  map (fun d => mkParagraph d None None true) l.
Proof. induction l as [|d l IH]; simpl; [reflexivity|]. rewrite IH. reflexivity. Qed.

Lemma filter_strong_map (l : list string) :
  filter is_strong (map (fun d => mkParagraph d None None true) l) = [].
Proof. induction l as [|d l IH]; simpl; [reflexivity|]. exact IH. Qed.

Lemma flat_map_nil {A B} (f : A -> list B) (l : list A) :
  (forall x, f x = []) -> flat_map f l = [].
Proof. intros H. induction l as [|x l IH]; simpl; [reflexivity|]. rewrite H, IH. reflexivity. Qed.

Lemma map_text_bullets (l : list string) :
  map text (map (fun d => mkParagraph d None None true) l) = l.
Proof. induction l as [|d l IH]; simpl; [reflexivity|]. rewrite IH. reflexivity. Qed.

Lemma map_flat_map {A B C} (g : B -> C) (f : A -> list B) (l : list A) :
  map g (flat_map f l) = flat_map (fun x => map g (f x)) l.
Proof.
  induction l as [|x l IH]; simpl; [reflexivity|].
  rewrite map_app, IH. reflexivity.
Qed.

Lemma flat_map_singleton {A B} (f : A -> B) (l : list A) :
  flat_map (fun x => [f x]) l = map f l.
Proof. induction l as [|x l IH]; simpl; [reflexivity|]. rewrite IH. reflexivity. Qed.

Lemma filter_heading1_map (l : list string) :
  filter is_heading1 (map (fun d => mkParagraph d None None true) l) = [].
Proof. induction l as [|d l IH]; simpl; [reflexivity|]. exact IH. Qed.

(** Per-section observations, by induction on the entries. *)
Ltac entries_ind :=
  let l := fresh "l" in
  intros l; induction l as [|? l IH]; [reflexivity|];
  cbn [flat_map]; rewrite ?filter_app, ?map_app, IH;
  try (unfold experience_blocks; rewrite ?filter_app;
       rewrite ?filter_bullet_map, ?filter_strong_map, ?filter_heading1_map);
  simpl; rewrite ?map_app, ?map_text_bullets, ?app_nil_r; reflexivity.

Lemma heading1_experience : forall l,
  filter is_heading1 (flat_map experience_blocks l) = [].
Proof. entries_ind. Qed.
Lemma heading1_education : forall l,
  filter is_heading1 (flat_map education_blocks l) = [].
Proof. entries_ind. Qed.
Lemma heading1_project : forall l,
  filter is_heading1 (flat_map project_blocks l) = [].
Proof. entries_ind. Qed.
Lemma heading1_custom : forall l,
  map text (filter is_heading1 (flat_map custom_blocks l)) = map CustomSection.title l.
Proof. entries_ind. Qed.

Lemma strong_experience : forall l,
  map text (filter is_strong (flat_map experience_blocks l)) =
  map (fun e => Experience.title e ++ " - " ++ Experience.company e) l.
Proof. entries_ind. Qed.
Lemma strong_education : forall l,
  map text (filter is_strong (flat_map education_blocks l)) =
  map (fun e => Education.degree e ++ ", " ++ Education.school e) l.
Proof. entries_ind. Qed.
Lemma strong_project : forall l,
  map text (filter is_strong (flat_map project_blocks l)) = map Project.name l.
Proof. entries_ind. Qed.
Lemma strong_custom : forall l,
  filter is_strong (flat_map custom_blocks l) = [].
Proof. entries_ind. Qed.

Lemma bullet_experience : forall l,
  map text (filter is_bullet (flat_map experience_blocks l)) =
  flat_map (fun e => bullet_texts (Experience.description e)) l.
Proof. entries_ind. Qed.
Lemma bullet_education : forall l,
  filter is_bullet (flat_map education_blocks l) = [].
Proof. entries_ind. Qed.
Lemma bullet_project : forall l,
  filter is_bullet (flat_map project_blocks l) = [].
Proof. entries_ind. Qed.
Lemma bullet_custom : forall l,
  filter is_bullet (flat_map custom_blocks l) = [].
Proof. entries_ind. Qed.

End DocxFacts.

(* ------------------------------------------------------------------ *)
(** ** DOCX assembly claims *)

Module DocxAssemblyClaims.
Import JsString Docx DocxFacts.
Local Open Scope nat_scope.
Local Open Scope string_scope.

Lemma bullet_count_nonblank (d : string) :
  List.length (bullet_texts d) = AssemblySpec.nonblank_lines d.
Proof.
  unfold bullet_texts, AssemblySpec.nonblank_lines. rewrite length_map.
  f_equal. apply filter_ext. intros l. rewrite DescriptionFacts.trim_nonempty_iff.
  reflexivity.
Qed.

Lemma length_flat_map_bullets (l : list Experience.t) :
  List.length (flat_map (fun e => bullet_texts (Experience.description e)) l) =
  list_sum (map (fun e => AssemblySpec.nonblank_lines (Experience.description e)) l).
Proof.
  induction l as [|e l IH]; simpl; [reflexivity|].
  rewrite length_app, IH, bullet_count_nonblank. reflexivity.
Qed.

(** C5: [exportToDOCX] is a function of the résumé that emits, in this
    order, the identity blocks, a spacer, the Summary blocks, a spacer, the
    Experience section, the Education section, the Skills section (its
    line is the skill names joined by [", "] in input order), the Projects
    section, then the custom sections; every section holds one group of
    blocks per entry, in input order.  The bullet blocks are as many as the
    non-blank description lines (two entries with 3 and 1 such lines give
    3 + 1), and the number of blocks depends only on the array lengths and
    on those line counts. *)
Theorem docx_assembly (r : ResumeData.t) :
  let exps := ResumeData.experience r in
  let blocks := exportToDOCX_children r in
  blocks =
    AssemblySpec.assemble_order
      (identity_blocks (ResumeData.personalInfo r))
      (summary_blocks (ResumeData.summary r))
      (map experience_blocks exps)
      (map education_blocks (ResumeData.education r))
      [plain (join ", " (map Skill.name (ResumeData.skills r))); spacer]
      (map project_blocks (ResumeData.projects r))
      (map custom_blocks (ResumeData.customSections r)) /\
  List.length (filter is_bullet blocks) =
    list_sum (map (fun e => AssemblySpec.nonblank_lines (Experience.description e)) exps) /\
  List.length blocks =
    13 + list_sum (map (fun e => 3 + AssemblySpec.nonblank_lines (Experience.description e)) exps)
       + 3 * List.length (ResumeData.education r)
       + 4 * List.length (ResumeData.projects r)
       + 3 * List.length (ResumeData.customSections r).
Proof.
  destruct r as [pi summary exps edus skills projs customs]. cbn zeta.
  unfold exportToDOCX_children; cbn [ResumeData.experience ResumeData.education
    ResumeData.projects ResumeData.customSections ResumeData.personalInfo
    ResumeData.summary ResumeData.skills].
  split.
  { unfold AssemblySpec.assemble_order, AssemblySpec.section.
    rewrite !flat_map_concat_map. reflexivity. }
  split.
  { rewrite <- (length_map text), !filter_app, !map_app, bullet_experience,
      bullet_education, bullet_project, bullet_custom.
    simpl. rewrite !app_nil_r. apply length_flat_map_bullets. }
  { rewrite !length_app, length_flat_map_experience.
    rewrite (length_flat_map_const education_blocks 3) by reflexivity.
    rewrite (length_flat_map_const project_blocks 4) by reflexivity.
    rewrite (length_flat_map_const custom_blocks 3) by reflexivity.
    rewrite (map_ext (fun e => 3 + List.length (bullet_texts (Experience.description e)))
                     (fun e => 3 + AssemblySpec.nonblank_lines (Experience.description e)))
      by (intros e; rewrite bullet_count_nonblank; reflexivity).
    simpl. lia. }
Qed.

(** C6 (as stated): with all five arrays empty, every block would be an
    identity block, a spacer or a Summary block.  It fails: the section
    headings are emitted unconditionally. *)
Lemma empty_arrays_only_identity_summary_counterexample :
  ~ (forall b, In b (exportToDOCX_children
                       (ResumeData.mk (PersonalInfo.mk "Ada" "Engineer" "ada@example.com"
                                                        "555" "ada.dev")
                                      "Summary text" [] [] [] [] [])) ->
       In b (identity_blocks (PersonalInfo.mk "Ada" "Engineer" "ada@example.com"
                                             "555" "ada.dev") ++
             [spacer] ++ summary_blocks "Summary text" ++ [spacer])%list).
Proof.
  intros H.
  specialize (H (headed "Experience" HEADING_1)).
  assert (Hin : In (headed "Experience" HEADING_1)
                   (exportToDOCX_children
                      (ResumeData.mk (PersonalInfo.mk "Ada" "Engineer" "ada@example.com"
                                                       "555" "ada.dev")
                                     "Summary text" [] [] [] [] []))).
  { simpl. tauto. }
  apply H in Hin. simpl in Hin.
  repeat (destruct Hin as [E|Hin]; [discriminate E|]). exact Hin.
Qed.

(** C6 (amended): with all five arrays empty, the block list is the identity
    blocks, a spacer, the Summary blocks, a spacer, then the headings
    "Experience" and "Education", the "Skills" heading with an empty skills
    line and a spacer, and the "Projects" heading: 13 blocks. *)
Theorem empty_arrays_blocks (pi : PersonalInfo.t) (summary : string) :
  exportToDOCX_children (ResumeData.mk pi summary [] [] [] [] []) =
  (identity_blocks pi ++ [spacer] ++ summary_blocks summary ++ [spacer] ++
   [headed "Experience" HEADING_1; headed "Education" HEADING_1;
    headed "Skills" HEADING_1; plain ""; spacer; headed "Projects" HEADING_1])%list.
Proof. reflexivity. Qed.

End DocxAssemblyClaims.

(* ------------------------------------------------------------------ *)
(** ** [exportToPDF] claims *)

Module ExportPDFClaims.
Import Pagination ExportPDF.



(** C7 (as the code has it): when [getContext('2d')] returns [null], the
    callback logs to the console and returns; no alert is shown and
    nothing is saved. *)
Theorem no_2d_context_no_alert (env : Env) (dom : Dom) (w h : Q)
  (Hc : hasContent env = true) (Hp : hasPreview env = true)
  (Hw : hasParent env = true) (Hcap : capture env = Resolved w h)
  (H2d : has2d env = false) :
  exportToPDF env dom =
    (dom, [Capture (apply_export_styles (set_dark false dom));
           ConsoleError "Could not get 2d context from canvas"%string]).
Proof.
  unfold exportToPDF. rewrite Hc, Hp, Hw, Hcap. unfold on_canvas. rewrite H2d.
  destruct dom as [[|] p w' c]; reflexivity.
Qed.

Lemma no_2d_context_no_alert_witness :
  let env := sample_env (Resolved 1200 4000) false (fun _ => true) in
  hasContent env = true /\ hasPreview env = true /\ hasParent env = true /\
  capture env = Resolved 1200 4000 /\ has2d env = false /\
  exportToPDF env sample_dom =
    (sample_dom, [Capture (apply_export_styles (set_dark false sample_dom));
                  ConsoleError "Could not get 2d context from canvas"%string]).
Proof.
  cbv zeta. do 5 (split; [reflexivity|]).
  apply (no_2d_context_no_alert _ _ 1200 4000); reflexivity.
Defined.

(** C8 (as the code has it): when [#resume-content] is found but
    [#resume-preview] is not, the export restores the dark-mode flag and
    returns without logging, alerting or capturing. *)
Theorem missing_preview_silent (env : Env) (dom : Dom)
  (Hc : hasContent env = true) (Hp : hasPreview env = false) :
  exportToPDF env dom = (dom, []).
Proof.
  unfold exportToPDF. rewrite Hc, Hp. simpl.
  destruct dom as [[|] p w c]; reflexivity.
Qed.

Lemma missing_preview_silent_witness :
  let env := mkEnv true false true (Resolved 1200 4000) A4_width A4_height true
                   (fun _ => true) "Ada" in
  hasContent env = true /\ hasPreview env = false /\
  exportToPDF env sample_dom = (sample_dom, []).
Proof.
  cbv zeta. split; [reflexivity|]. split; [reflexivity|].
  apply missing_preview_silent; reflexivity.
Defined.

End ExportPDFClaims.

(* ------------------------------------------------------------------ *)
(** ** Further properties of the string helpers *)

Module StringProps.
Import JsString Docx DescriptionSpec DescriptionFacts.
Local Open Scope nat_scope.
Local Open Scope string_scope.

Lemma split_nl_not_nil (s : string) : split_nl s <> [].
Proof.
  destruct s as [|c rest]; simpl; [discriminate|].
  destruct (Ascii.eqb c "010"%char); [discriminate|].
  destruct (split_nl rest); discriminate.
Qed.

Lemma join_cons_char (sep h : string) (c : ascii) (t : list string) :
  join sep (String c h :: t) = String c (join sep (h :: t)).
Proof. destruct t; reflexivity. Qed.

(** [s.split('\n')] loses nothing: joining the pieces with ["\n"] gives
    [s] back, and there is one piece more than there are newlines. *)
Theorem split_nl_roundtrip (s : string) :
  join newline (split_nl s) = s /\
  List.length (split_nl s) = S (count_char "010"%char s).
Proof.
  induction s as [|c rest [IHj IHl]]; [split; reflexivity|].
  simpl. destruct (Ascii.eqb c "010"%char) eqn:Ec.
  - apply Ascii.eqb_eq in Ec. subst c. split; [|simpl; rewrite IHl; reflexivity].
    destruct (split_nl rest) as [|h t] eqn:E; [exfalso; exact (split_nl_not_nil rest E)|].
    simpl. rewrite <- IHj. destruct t; reflexivity.
  - destruct (split_nl rest) as [|h t] eqn:E; [exfalso; exact (split_nl_not_nil rest E)|].
    rewrite join_cons_char, IHj. split; [reflexivity|]. simpl in *. exact IHl.
Qed.

Lemma split_nl_pieces (s : string) :
  forall l, In l (split_nl s) -> count_char "010"%char l = 0.
Proof.
  induction s as [|c rest IH]; simpl.
  - intros l [<-|[]]. reflexivity.
  - destruct (Ascii.eqb c "010"%char) eqn:Ec.
    + intros l [<-|Hl]; [reflexivity|]. apply IH, Hl.
    + destruct (split_nl rest) as [|h t] eqn:E; intros l Hl.
      * destruct Hl as [<-|[]]. simpl. rewrite Ec. reflexivity.
      * destruct Hl as [<-|Hl].
        -- simpl. rewrite Ec. apply IH. left. reflexivity.
        -- apply IH. right. exact Hl.
Qed.

Lemma replace_leading_dash_count (l : string) :
  count_char "010"%char l = 0 -> count_char "010"%char (replace_leading_dash l) = 0.
Proof.
  destruct (replace_leading_dash_shape l) as [E|E]; [rewrite E; auto|].
  rewrite E at 1. simpl. auto.
Qed.

(** Every bullet text of an experience description comes from one line of
    the description (a piece of [split('\n')]) that is not blank, either
    unchanged or with a leading ["- "] removed; it contains no newline. *)
Theorem bullet_texts_single_line (description b : string) :
  In b (bullet_texts description) ->
  exists l, In l (split_nl description) /\ all_ws l = false /\
            (l = b \/ l = "- " ++ b) /\ count_char "010"%char b = 0.
Proof.
  unfold bullet_texts. intros Hb. apply in_map_iff in Hb as (l & <- & Hl).
  apply filter_In in Hl as [Hl Hne].
  exists l. split; [exact Hl|]. split.
  { rewrite <- trim_nonempty_iff. destruct (String.eqb (trim l) ""); [discriminate|reflexivity]. }
  split.
  { destruct (replace_leading_dash_shape l) as [E|E]; [left; symmetry; exact E | right; exact E]. }
  apply replace_leading_dash_count, (split_nl_pieces description), Hl.
Qed.

Lemma bullet_texts_single_line_witness :
  In "Led a team" (bullet_texts "- Led a team") /\
  exists l, In l (split_nl "- Led a team") /\ all_ws l = false /\
            (l = "Led a team" \/ l = "- " ++ "Led a team") /\
            count_char "010"%char "Led a team" = 0.
Proof.
  split; [left; reflexivity|].
  apply (bullet_texts_single_line "- Led a team"). left. reflexivity.
Defined.

Lemma split_nl_no_newline (s : string) :
  count_char "010"%char s = 0 -> split_nl s = [s].
Proof.
  induction s as [|c rest IH]; simpl; [reflexivity|].
  destruct (Ascii.eqb c "010"%char) eqn:Ec; [discriminate|].
  intros H. rewrite IH by exact H. reflexivity.
Qed.

(** A line of a description made of ["- "] and white space only, wherever
    it stands, is kept by the filter (its trimmed form is ["-"]) and gives
    a bullet whose text is the blank remainder. *)
Theorem dash_only_line_blank_bullet (description w : string) :
  In (String "-" (String " " w)) (split_nl description) -> all_ws w = true ->
  In w (bullet_texts description).
Proof.
  intros Hl Hw. unfold bullet_texts. apply in_map_iff.
  exists (String "-" (String " " w)). split; [reflexivity|].
  apply filter_In. split; [exact Hl|].
  rewrite trim_nonempty_iff. reflexivity.
Qed.

Lemma dash_only_line_blank_bullet_witness :
  let d := String.concat newline ["Led a team"; "-  "; "Shipped v2"] in
  In "-  " (split_nl d) /\ all_ws " " = true /\ In " " (bullet_texts d).
Proof.
  cbv zeta.
  assert (Hl : In "-  " (split_nl (String.concat newline ["Led a team"; "-  "; "Shipped v2"])))
    by (vm_compute; tauto).
  split; [exact Hl|]. split; [reflexivity|].
  exact (dash_only_line_blank_bullet _ " " Hl eq_refl).
Defined.

Lemma trim_end_idem (s : string) : trim_end (trim_end s) = trim_end s.
Proof.
  induction s as [|c rest IH]; [reflexivity|].
  simpl. destruct (trim_end rest) as [|c' r] eqn:E.
  - destruct (is_ws c) eqn:Ec; [reflexivity|]. simpl. rewrite Ec. reflexivity.
  - cbn [trim_end]. cbn [trim_end] in IH. rewrite IH. reflexivity.
Qed.

Lemma trim_end_head (c : ascii) (rest : string) :
  is_ws c = false -> exists r, trim_end (String c rest) = String c r.
Proof.
  intros Hc. simpl. destruct (trim_end rest) as [|c' r].
  - rewrite Hc. eexists. reflexivity.
  - eexists. reflexivity.
Qed.

(** [trim] is idempotent: trimming a trimmed string changes nothing. *)
Theorem trim_idempotent (s : string) : trim (trim s) = trim s.
Proof.
  unfold trim. destruct (all_ws s) eqn:E.
  - rewrite (trim_start_all_ws s E). reflexivity.
  - destruct (trim_start_not_all_ws s E) as (c & rest & -> & Hc).
    destruct (trim_end_head c rest Hc) as [r Hr]. rewrite Hr.
    simpl (trim_start (String c r)). rewrite Hc, <- Hr. apply trim_end_idem.
Qed.

End StringProps.

(* ------------------------------------------------------------------ *)
(** ** [exportToHTML] properties *)

Module ExportHTMLProps.
Import JsString ExportHTML.
Local Open Scope string_scope.

Lemma append_assoc_str (a b c : string) :
  String.append (String.append a b) c = String.append a (String.append b c).
Proof. induction a as [|x a IH]; simpl; [reflexivity|]. rewrite IH. reflexivity. Qed.

Lemma append_empty_r_str (a : string) : String.append a "" = a.
Proof. induction a as [|x a IH]; simpl; [reflexivity|]. rewrite IH. reflexivity. Qed.

Lemma trim_end_app (a b : string) :
  trim_end b <> EmptyString ->
  trim_end (String.append a b) = String.append a (trim_end b).
Proof.
  intros Hb. induction a as [|c a IH]; [reflexivity|].
  cbn [String.append trim_end]. rewrite IH.
  destruct (String.append a (trim_end b)) eqn:E; [|reflexivity].
  destruct a; simpl in E; [contradiction|discriminate].
Qed.

Lemma html_document_head (name headContent fc resumeHTML : string) :
  exists r, html_document name headContent fc resumeHTML = String "<" r.
Proof. eexists. reflexivity. Qed.

(** [fullHTML.trim()] removes exactly the newline after the opening
    backtick and the indentation before the closing one. *)
Lemma trim_fullHTML (name headContent fc resumeHTML : string) :
  trim (fullHTML name headContent fc resumeHTML) =
  html_document name headContent fc resumeHTML.
Proof.
  unfold trim, fullHTML.
  destruct (html_document_head name headContent fc resumeHTML) as [r Hr].
  remember (html_document name headContent fc resumeHTML) as D eqn:HD.
  change (String.append newline ?x) with (String "010"%char x).
  change (trim_start (String "010"%char ?x)) with (trim_start x).
  rewrite Hr. change (String.append (String "<" r) ?t) with (String "<" (String.append r t)).
  change (trim_start (String "<" ?x)) with (String "<" x).
  change (String "<" (String.append r ?t)) with (String.append (String "<" r) t).
  rewrite <- Hr, HD. unfold html_document at 1. rewrite append_assoc_str.
  rewrite trim_end_app by discriminate. reflexivity.
Qed.

Lemma concat_in (x : string) (l : list string) :
  In x l -> exists a b, String.concat "" l = String.append a (String.append x b).
Proof.
  induction l as [|p l IH]; [intros []|].
  intros [<-|Hx].
  - destruct l as [|q l].
    + exists "", "". simpl. rewrite append_empty_r_str. reflexivity.
    + exists "", (String.concat "" (q :: l)). reflexivity.
  - destruct (IH Hx) as (a & b & E). destruct l as [|q l]; [destruct Hx|].
    exists (String.append p a), b. change (String.concat "" (p :: q :: l))
      with (String.append p (String.append "" (String.concat "" (q :: l)))).
    rewrite E. simpl. rewrite append_assoc_str. reflexivity.
Qed.

(** [exportToHTML] with [#resume-content] present downloads exactly one
    file, [<name>_Resume.html], whose content is the template from
    [<!DOCTYPE html>] to [</html>] with no surrounding white space. *)
Theorem exportToHTML_saves_document (env : HtmlEnv) (Hc : hasContent env = true) :
  exportToHTML env =
  [SaveBlob (String.append (userName env) "_Resume.html")
            (html_document (userName env) (headContent env)
                           (fontClass (FONTS env) (font env)) (resumeHTML env))].
Proof. unfold exportToHTML. rewrite Hc. simpl. rewrite trim_fullHTML. reflexivity. Qed.

Lemma exportToHTML_saves_document_witness :
  let env := mkHtmlEnv true "<meta />" "<p>CV</p>" [mkFont "inter" "font-inter"]
                       "inter" "Ada" in
  hasContent env = true /\
  exportToHTML env =
  [SaveBlob (String.append (userName env) "_Resume.html")
            (html_document (userName env) (headContent env)
                           (fontClass (FONTS env) (font env)) (resumeHTML env))].
Proof.
  cbv zeta. split; [reflexivity|]. apply exportToHTML_saves_document. reflexivity.
Defined.

(** The downloaded document starts with [<!DOCTYPE html>], ends with
    [</html>], and contains the résumé's name, the page's head markup and
    the rendered résumé markup verbatim (nothing is escaped). *)
Theorem html_document_shape (name headContent fc resumeHTML : string) :
  let doc := html_document name headContent fc resumeHTML in
  String.prefix "<!DOCTYPE html>" doc = true /\
  (exists m, doc = String.append m "</html>") /\
  (exists a b, doc = String.append a (String.append name b)) /\
  (exists a b, doc = String.append a (String.append headContent b)) /\
  (exists a b, doc = String.append a (String.append resumeHTML b)).
Proof.
  cbv zeta.
  assert (Hin : forall x, In x [name; headContent; resumeHTML] ->
            exists a b, html_document name headContent fc resumeHTML =
                        String.append a (String.append x b)).
  { intros x Hx. unfold html_document.
    match goal with
    | |- exists a b, String.append (String.concat "" ?l) _ = _ =>
        assert (Hl : In x l) by
          (destruct Hx as [<-|[<-|[<-|[]]]]; simpl; tauto);
        destruct (concat_in x l Hl) as (a & b & E)
    end.
    rewrite E, !append_assoc_str. eexists a, _. reflexivity. }
  split; [reflexivity|].
  split; [eexists; reflexivity|].
  split; [apply Hin; simpl; tauto|].
  split; apply Hin; simpl; tauto.
Qed.

Lemma find_none_all {A} (p : A -> bool) (l : list A) :
  (forall x, In x l -> p x = false) -> find p l = None.
Proof.
  induction l as [|x l IH]; intros H; [reflexivity|].
  simpl. rewrite (H x (or_introl eq_refl)). apply IH. intros y Hy. apply H. right. exact Hy.
Qed.

(** The body's font class is never empty: it is the [className] of the
    first [FONTS] entry whose key is the chosen font when that class name
    is non-empty, and ['font-inter'] when that class name is empty or no
    entry has the chosen key. *)
Theorem fontClass_fallback (FONTS : list Font) (font : string) :
  fontClass FONTS font <> "" /\
  (forall f, find (fun f => String.eqb (key f) font) FONTS = Some f ->
             className f <> "" -> fontClass FONTS font = className f) /\
  (forall f, find (fun f => String.eqb (key f) font) FONTS = Some f ->
             className f = "" -> fontClass FONTS font = "font-inter") /\
  ((forall f, In f FONTS -> key f <> font) -> fontClass FONTS font = "font-inter").
Proof.
  unfold fontClass. split; [|split; [|split]].
  - destruct (find _ FONTS) as [f|]; [|discriminate].
    destruct (String.eqb_spec (className f) "") as [_|Hne]; [discriminate|exact Hne].
  - intros f Hf Hne. rewrite Hf. apply String.eqb_neq in Hne. rewrite Hne. reflexivity.
  - intros f Hf He. rewrite Hf, He. reflexivity.
  - intros Hk. rewrite find_none_all; [reflexivity|].
    intros f Hf. apply String.eqb_neq, Hk, Hf.
Qed.

End ExportHTMLProps.

(* ------------------------------------------------------------------ *)
(** ** Further pagination properties *)

Module PaginationProps.
Import Pagination PaginationFacts.

Lemma nth_error_lt {A} (l : list A) (i : nat) (x : A) :
  nth_error l i = Some x -> (i < List.length l)%nat.
Proof. intros H. apply nth_error_Some. rewrite H. discriminate. Qed.

(** Consecutive slices abut: the first starts at row 0, each next one
    starts where the previous ends, and the last ends at [canvasHeight]. *)
Theorem slices_contiguous (canvasWidth canvasHeight contentWidth px : Q)
  (Hh : 0 < canvasHeight) (Hpx : 0 < px) :
  let sl := computeSlices canvasWidth canvasHeight contentWidth px in
  (exists s0, nth_error sl 0 = Some s0 /\ sourceY s0 == 0) /\
  (forall i s s', nth_error sl i = Some s -> nth_error sl (S i) = Some s' ->
     sourceY s' == sourceY s + sourceHeight s) /\
  (forall s, nth_error sl (pred (List.length sl)) = Some s ->
     sourceY s + sourceHeight s == canvasHeight).
Proof.
  cbv zeta.
  pose proof (slices_length canvasWidth canvasHeight contentWidth px Hpx Hh) as HL.
  pose proof (numPages_pos canvasHeight px Hpx Hh) as Hpos.
  pose proof (numPages_bounds canvasHeight px Hpx) as [H1 H2].
  split; [|split].
  - eexists. split; [apply slices_nth; auto; lia|]. simpl. ring.
  - intros i s s' Hs Hs'.
    pose proof (nth_error_lt _ _ _ Hs') as Hi. rewrite HL in Hi.
    rewrite slices_nth in Hs, Hs' by (auto; lia).
    injection Hs as <-. injection Hs' as <-. cbv zeta. cbn [sourceY sourceHeight].
    pose proof (inject_nat_nonneg i).
    assert (HS : inject_Z (Z.of_nat (S i)) <= inject_Z (numPages canvasHeight px) - 1).
    { rewrite inject_nat_S.
      assert (inject_Z (Z.of_nat (S i)) <= inject_Z (numPages canvasHeight px - 1)) as HZ.
      { rewrite <- Zle_Qle. lia. }
      rewrite inject_nat_S, inject_Z_minus in HZ. exact HZ. }
    assert (Hm : Qmin px (canvasHeight - inject_Z (Z.of_nat i) * px) == px)
      by (apply Q.min_l; rewrite inject_nat_S in HS;
          apply (Qmult_le_r _ _ px Hpx) in HS; lra).
    rewrite Hm. change (Z.pos (Pos.of_succ_nat i)) with (Z.of_nat (S i)).
    rewrite inject_nat_S. ring.
  - intros s Hs. pose proof (nth_error_lt _ _ _ Hs) as Hi. rewrite HL in Hi, Hs.
    rewrite slices_nth in Hs by (auto; lia).
    injection Hs as <-. cbv zeta. cbn [sourceY sourceHeight].
    assert (inject_Z (Z.of_nat (pred (Z.to_nat (numPages canvasHeight px))))
            == inject_Z (numPages canvasHeight px) - 1) as HM.
    { setoid_replace (inject_Z (numPages canvasHeight px) - 1)
        with (inject_Z (numPages canvasHeight px - 1))
        by (rewrite inject_Z_minus; reflexivity).
      apply inject_Z_injective. lia. }
    assert (Hm : Qmin px (canvasHeight - inject_Z (Z.of_nat
              (pred (Z.to_nat (numPages canvasHeight px)))) * px)
            == canvasHeight - inject_Z (Z.of_nat
              (pred (Z.to_nat (numPages canvasHeight px)))) * px)
      by (apply Q.min_r; rewrite HM; nra).
    rewrite Hm. ring.
Qed.

Lemma slices_contiguous_witness :
  0 < 250 /\ 0 < 100 /\
  let sl := computeSlices 50 250 25 100 in
  (exists s0, nth_error sl 0 = Some s0 /\ sourceY s0 == 0) /\
  (forall i s s', nth_error sl i = Some s -> nth_error sl (S i) = Some s' ->
     sourceY s' == sourceY s + sourceHeight s) /\
  (forall s, nth_error sl (pred (List.length sl)) = Some s ->
     sourceY s + sourceHeight s == 250).
Proof.
  split; [reflexivity|]. split; [reflexivity|].
  apply slices_contiguous; reflexivity.
Defined.

Lemma Qsum_map_Qeq (f g : Slice -> Q) (l : list Slice) :
  (forall s, In s l -> f s == g s) -> Qsum (map f l) == Qsum (map g l).
Proof.
  induction l as [|x l IH]; intros H; simpl; [reflexivity|].
  rewrite (H x (or_introl eq_refl)), IH; [reflexivity|].
  intros s Hs. apply H. right. exact Hs.
Qed.

Lemma Qsum_map_scale (f : Slice -> Q) (k : Q) (l : list Slice) :
  Qsum (map (fun s => f s * k) l) == Qsum (map f l) * k.
Proof. induction l as [|x l IH]; simpl; [ring|]. rewrite IH. ring. Qed.

(** Every image drawn on a page is at most [pageContentHeight] points high
    (it stays within the bottom margin) and has a positive height; together
    they measure the canvas height scaled to the content width. *)
Theorem slices_fit_page (pdfWidth pdfHeight canvasWidth canvasHeight : Q)
  (Hw : 0 < canvasWidth) (Hh : 0 < canvasHeight)
  (Hpw : 2 * MARGIN < pdfWidth) (Hph : 2 * MARGIN < pdfHeight) :
  let cw := contentWidth pdfWidth in
  let px := export_px pdfWidth pdfHeight canvasWidth in
  let sl := computeSlices canvasWidth canvasHeight cw px in
  (forall s, In s sl -> 0 < slicePdfHeight s <= pageContentHeight pdfHeight) /\
  Qsum (map slicePdfHeight sl) == canvasHeight * cw / canvasWidth.
Proof.
  intros cw px sl.
  assert (Hcw : 0 < cw) by (unfold cw, contentWidth, MARGIN in *; lra).
  assert (Hch : 0 < pageContentHeight pdfHeight)
    by (unfold pageContentHeight, MARGIN in *; lra).
  assert (Hpx_eq : px * cw / canvasWidth == pageContentHeight pdfHeight).
  { unfold px, export_px, pageContentHeightInCanvasPixels. fold cw.
    assert (~ canvasWidth == 0) by (intro E; rewrite E in Hw; discriminate).
    assert (~ cw == 0) by (intro E; rewrite E in Hcw; discriminate).
    field. tauto. }
  assert (Hpx : 0 < px).
  { unfold px, export_px, pageContentHeightInCanvasPixels. fold cw.
    apply Qlt_shift_div_l; [exact Hcw|]. nra. }
  assert (Hk : 0 < cw / canvasWidth) by (apply Qlt_shift_div_l; [exact Hw | nra]).
  split.
  - intros s Hs. unfold sl in Hs. rewrite computeSlices_explicit in Hs by assumption.
    apply in_map_iff in Hs as (i & <- & Hi). apply in_seq in Hi.
    pose proof (sourceHeight_pos canvasHeight px Hpx Hh i ltac:(lia)) as Hsh.
    cbv zeta. cbn [slicePdfHeight].
    set (sh := Qmin px (canvasHeight - inject_Z (Z.of_nat i) * px)) in *.
    assert (sh <= px) by apply Q.le_min_l.
    unfold Qdiv. rewrite <- Qmult_assoc. fold (cw / canvasWidth).
    split; [nra|]. rewrite <- Hpx_eq. unfold Qdiv. rewrite <- Qmult_assoc.
    fold (cw / canvasWidth). nra.
  - unfold sl.
    rewrite (Qsum_map_Qeq slicePdfHeight (fun s => sourceHeight s * (cw / canvasWidth))).
    + rewrite Qsum_map_scale, slices_sum by assumption. unfold Qdiv. ring.
    + intros s Hs. unfold sl in Hs. rewrite computeSlices_explicit in Hs by assumption.
      apply in_map_iff in Hs as (i & <- & _). simpl. unfold Qdiv. ring.
Qed.

Lemma slices_fit_page_witness :
  0 < 1200 /\ 0 < 4000 /\ 2 * MARGIN < A4_width /\ 2 * MARGIN < A4_height /\
  (forall s, In s (computeSlices 1200 4000 (contentWidth A4_width)
                                 (export_px A4_width A4_height 1200)) ->
     0 < slicePdfHeight s <= pageContentHeight A4_height) /\
  Qsum (map slicePdfHeight (computeSlices 1200 4000 (contentWidth A4_width)
                                          (export_px A4_width A4_height 1200)))
  == 4000 * contentWidth A4_width / 1200.
Proof.
  do 4 (split; [reflexivity|]).
  apply slices_fit_page; reflexivity.
Defined.

End PaginationProps.

(* ------------------------------------------------------------------ *)
(** ** Further [exportToPDF] properties *)

Module ExportPDFProps.
Import Pagination ExportPDF.




Lemma run_loop_only_pdf (env : Env) (W H cw px : Q) (idxs : list nat) :
  forall e, In e (fst (run_loop env W H cw px idxs)) -> exists op, e = PdfOp op.
Proof.
  induction idxs as [|i idxs IH]; simpl; [intros _ []|].
  intros e He.
  assert (Hpre : In e (if Nat.ltb 0 i then [PdfOp AddPage] else []) ->
                 exists op, e = PdfOp op).
  { destruct (Nat.ltb 0 i); simpl; [intros [<-|[]]; eexists; reflexivity | intros []]. }
  destruct (slice_at W H cw px i) as [s|].
  - destruct (encodeOk env i).
    + destruct (run_loop env W H cw px idxs) as [evs t]. simpl in IH, He.
      apply in_app_or in He as [He|He]; [exact (Hpre He)|].
      destruct He as [<-|He]; [eexists; reflexivity | exact (IH e He)].
    + exact (Hpre He).
  - destruct (run_loop env W H cw px idxs) as [evs t]. simpl in IH, He.
    apply in_app_or in He as [He|He]; [exact (Hpre He) | exact (IH e He)].
Qed.

Lemma filter_only_pdf (p : event -> bool) (evs : list event) :
  (forall e, In e evs -> exists op, e = PdfOp op) ->
  (forall op, p (PdfOp op) = false) -> filter p evs = [].
Proof.
  induction evs as [|e evs IH]; intros H Hp; [reflexivity|].
  simpl. destruct (H e (or_introl eq_refl)) as [op ->]. rewrite Hp.
  apply IH; [intros x Hx; apply H; right; exact Hx | exact Hp].
Qed.

(** Whatever the page and the libraries do, an export saves at most one
    PDF, and never both saves a PDF and shows an alert. *)
Theorem export_save_xor_alert (env : Env) (dom : Dom) :
  let evs := snd (exportToPDF env dom) in
  (List.length (filter is_save evs) <= 1)%nat /\
  (filter is_save evs <> [] -> filter is_alert evs = []).
Proof.
  cbv zeta. unfold exportToPDF.
  destruct (hasContent env); [|split; [simpl; lia | intros H; exfalso; apply H; reflexivity]].
  destruct (dark dom); destruct (hasPreview env && hasParent env);
    try (split; [simpl; lia | intros H; exfalso; apply H; reflexivity]);
  (destruct (capture env) as [| |w h];
   [split; [simpl; lia | intros H; exfalso; apply H; reflexivity]
   |split; [simpl; lia | intros H; exfalso; apply H; reflexivity]|]);
  unfold on_canvas; destruct (has2d env);
    try (split; [simpl; lia | intros H; exfalso; apply H; reflexivity]);
  match goal with
  | |- context [run_loop ?env ?W ?H ?cw ?px ?idxs] =>
      pose proof (run_loop_only_pdf env W H cw px idxs) as Hpdf;
      destruct (run_loop env W H cw px idxs) as [evs threw]; simpl in Hpdf
  end;
  assert (Hs : filter is_save evs = []) by (apply filter_only_pdf; auto);
  assert (Ha : filter is_alert evs = []) by (apply filter_only_pdf; auto);
  destruct threw; cbn -[filter]; simpl filter;
  rewrite ?filter_app, Hs, Ha; simpl;
  (split; [lia | intros H; try reflexivity; exfalso; apply H; reflexivity]).
Qed.

Lemma run_loop_throws (env : Env) (W H cw px : Q) (idxs : list nat) :
  (exists i, In i idxs /\ slice_at W H cw px i <> None /\ encodeOk env i = false) ->
  snd (run_loop env W H cw px idxs) = true.
Proof.
  induction idxs as [|j idxs IH]; intros (i & Hi & Hs & He); [destruct Hi|].
  simpl. destruct Hi as [<-|Hi].
  - destruct (slice_at W H cw px j) as [s|]; [|contradiction].
    rewrite He. reflexivity.
  - assert (Hr : snd (run_loop env W H cw px idxs) = true) by (apply IH; eauto).
    destruct (run_loop env W H cw px idxs) as [evs t]. simpl in Hr. subst t.
    destruct (slice_at W H cw px j) as [s|]; [destruct (encodeOk env j)|]; reflexivity.
Qed.

(** When the capture is rejected, or a slice that is drawn fails to encode,
    nothing is saved and the export ends with the catch clause's log and
    alert. *)
Theorem export_failure_no_save (env : Env) (dom : Dom) (w h : Q)
  (Hc : hasContent env = true) (Hp : hasPreview env = true)
  (Hw : hasParent env = true)
  (Hfail : capture env = Rejected \/
           (capture env = Resolved w h /\ has2d env = true /\
            exists i, In i (loop_indices (numPages h (export_px (pdfWidth env) (pdfHeight env) w))) /\
              slice_at w h (contentWidth (pdfWidth env))
                       (export_px (pdfWidth env) (pdfHeight env) w) i <> None /\
              encodeOk env i = false)) :
  let evs := snd (exportToPDF env dom) in
  filter is_save evs = [] /\
  exists pre, evs = pre ++ [ConsoleError "Failed to export to PDF:"%string;
                            Alert "An error occurred while exporting to PDF. Please try again."%string].
Proof.
  cbv zeta. unfold exportToPDF. rewrite Hc, Hp, Hw.
  destruct Hfail as [Hcap | (Hcap & H2d & Hex)]; rewrite Hcap.
  - destruct (dark dom); simpl;
      (split; [reflexivity |
               match goal with |- exists pre, ?x :: _ = _ => exists [x]; reflexivity end]).
  - unfold on_canvas. rewrite H2d. cbn -[run_loop apply_export_styles].
    pose proof (run_loop_throws env w h _ _ _ Hex) as Ht.
    pose proof (run_loop_only_pdf env w h (contentWidth (pdfWidth env))
                  (export_px (pdfWidth env) (pdfHeight env) w)
                  (loop_indices (numPages h (export_px (pdfWidth env) (pdfHeight env) w))))
      as Hpdf.
    unfold export_px in Ht, Hpdf.
    destruct (run_loop _ _ _ _ _ _) as [evs threw]. simpl in Ht, Hpdf. subst threw.
    assert (Hs : filter is_save evs = []) by (apply filter_only_pdf; auto).
    destruct (dark dom); cbn -[filter];
      (split; [simpl; rewrite filter_app, Hs; reflexivity
              | match goal with |- exists pre, ?x :: _ = _ =>
                  exists (x :: evs); reflexivity end]).
Qed.

Lemma export_failure_no_save_witness :
  let env := sample_env (Resolved 1200 4000) true (fun i => Nat.ltb i 1) in
  hasContent env = true /\ hasPreview env = true /\ hasParent env = true /\
  (capture env = Rejected \/
   (capture env = Resolved 1200 4000 /\ has2d env = true /\
    exists i, In i (loop_indices (numPages 4000 (export_px (pdfWidth env) (pdfHeight env) 1200))) /\
      slice_at 1200 4000 (contentWidth (pdfWidth env))
               (export_px (pdfWidth env) (pdfHeight env) 1200) i <> None /\
      encodeOk env i = false)) /\
  filter is_save (snd (exportToPDF env sample_dom)) = [] /\
  exists pre, snd (exportToPDF env sample_dom) =
    pre ++ [ConsoleError "Failed to export to PDF:"%string;
            Alert "An error occurred while exporting to PDF. Please try again."%string].
Proof.
  cbv zeta.
  assert (Hf : capture (sample_env (Resolved 1200 4000) true (fun i => Nat.ltb i 1)) = Rejected \/
   (capture (sample_env (Resolved 1200 4000) true (fun i => Nat.ltb i 1)) = Resolved 1200 4000 /\
    has2d (sample_env (Resolved 1200 4000) true (fun i => Nat.ltb i 1)) = true /\
    exists i, In i (loop_indices (numPages 4000 (export_px A4_width A4_height 1200))) /\
      slice_at 1200 4000 (contentWidth A4_width) (export_px A4_width A4_height 1200) i
        <> None /\
      Nat.ltb i 1 = false)).
  { right. split; [reflexivity|]. split; [reflexivity|]. exists 1%nat.
    split; [vm_compute; tauto|]. split; [vm_compute; discriminate | reflexivity]. }
  do 3 (split; [reflexivity|]). split; [exact Hf|].
  apply (export_failure_no_save _ _ 1200 4000); try reflexivity. exact Hf.
Defined.



End ExportPDFProps.
